(** * isigim: the login views and the Home page

  A shallow embedding of the three React components of the repository:
  [LoginPage] (LoginPage.tsx), the demo [Login] component, and [HomePage]
  (src/pages/Home.tsx), together with the properties their handlers and
  the card renderer satisfy. *)

From Stdlib Require Import Ascii String.
From Stdlib Require Import List Bool Arith NArith Lia.
Import ListNotations.

Set Implicit Arguments.

(** ** JavaScript values *)

(** A JavaScript string is a sequence of UTF-16 code units; [length] counts
  code units and [===] compares the sequences. *)
Definition code_unit := N.
Definition jsstring := list code_unit.

(** An ASCII literal of the source, as code units. *)
Definition str (s : string) : jsstring :=
  map N_of_ascii (list_ascii_of_string s).

Fixpoint jsstring_eqb (a b : jsstring) : bool :=
  match a, b with
  | [], [] => true
  | x :: a', y :: b' => N.eqb x y && jsstring_eqb a' b'
  | _, _ => false
  end.

(** Values typed [any] in the source: the form payload handed to [onFinish]
  and the arguments of the console calls. *)
Inductive jsval : Type :=
| VUndefined
| VNull
| VBool (b : bool)
| VString (s : jsstring)
| VObject (fields : jsfields)
with jsfields : Type :=
| FNil
| FCons (key : jsstring) (value : jsval) (rest : jsfields).

(** What a handler makes observable: console calls (developer-facing) and
  antd [message] notifications (user-facing). *)
Inductive output : Type :=
| ConsoleLog (args : list jsval)
| ConsoleError (args : list jsval)
| MessageSuccess (content : jsstring)
| MessageError (content : jsstring).

Definition is_console (o : output) : bool :=
  match o with
  | ConsoleLog _ | ConsoleError _ => true
  | MessageSuccess _ | MessageError _ => false
  end.

Definition is_notification (o : output) : bool :=
  match o with
  | MessageSuccess _ | MessageError _ => true
  | ConsoleLog _ | ConsoleError _ => false
  end.

Definition console (os : list output) : list output := filter is_console os.
Definition notifications (os : list output) : list output :=
  filter is_notification os.

(** A change event, as far as the handlers read it: [e.target.value]. *)
Record ChangeEvent := { target_value : jsstring }.

(** ** The part of React the components rely on

  A component owns the cells created by [useState].  An event handler is a
  closure over the values of the render it was created in; it may call
  setters and produce output.  React applies the queued setter calls,
  renders again, and after the commit runs every [useEffect] whose
  dependency array differs from the previous render's. *)
Module React.
Section Component.

Variables state setter : Type.
Variable apply : setter -> state -> state.

(** [useEffect(body, deps)]; the dependencies in the source are strings. *)
Record effect_hook := {
  deps : state -> list jsstring;
  body : state -> list output
}.

Variable effects : list effect_hook.

Inductive action : Type :=
| Update (s : setter)
| Out (o : output).

Definition handler := state -> list action.

Definition reduce (acts : list action) (st : state) : state :=
  fold_left (fun s a => match a with Update u => apply u s | Out _ => s end)
            acts st.

Fixpoint emitted (acts : list action) : list output :=
  match acts with
  | [] => []
  | Out o :: rest => o :: emitted rest
  | Update _ :: rest => emitted rest
  end.

Definition writes (acts : list action) : list setter :=
  flat_map (fun a => match a with Update u => [u] | Out _ => [] end) acts.

Fixpoint deps_eqb (a b : list jsstring) : bool :=
  match a, b with
  | [], [] => true
  | x :: a', y :: b' => jsstring_eqb x y && deps_eqb a' b'
  | _, _ => false
  end.

(** Effects run after a commit, in declaration order. *)
Definition commit (prev next : state) : list output :=
  flat_map (fun e => if deps_eqb (deps e prev) (deps e next)
                     then [] else body e next) effects.

(** Effects run after the first render. *)
Definition mount (init : state) : list output :=
  flat_map (fun e => body e init) effects.

(** One event: run the handler on the current render's values, apply its
    setter calls, then run the effects of the resulting commit. *)
Definition dispatch (h : handler) (st : state) : state * list output :=
  let acts := h st in
  let st' := reduce acts st in
  (st', emitted acts ++ commit st st').

End Component.
End React.

Arguments React.Update {setter} s.
Arguments React.Out {setter} o.

(** ** LoginPage.tsx *)
Module LoginPage.

(** The three [useState] cells of the component. *)
Record state := {
  username : jsstring;
  password : jsstring;
  loading : bool
}.

Definition initial : state :=
  {| username := []; password := []; loading := false |}.

Inductive setter : Type :=
| setUsername (v : jsstring)
| setPassword (v : jsstring)
| setLoading (v : bool).

Definition apply (u : setter) (st : state) : state :=
  match u with
  | setUsername v =>
      {| username := v; password := password st; loading := loading st |}
  | setPassword v =>
      {| username := username st; password := v; loading := loading st |}
  | setLoading v =>
      {| username := username st; password := password st; loading := v |}
  end.

Definition handler := React.handler state setter.

(** The component registers no [useEffect]. *)
Definition effects : list (React.effect_hook state) := [].

Definition dispatch (h : handler) (st : state) : state * list output :=
  React.dispatch apply effects h st.

Definition handleUsernameChange (e : ChangeEvent) : handler :=
  fun _ => [React.Update (setUsername (target_value e))].

(** The inline [onChange] of [Input.Password]. *)
Definition passwordOnChange (e : ChangeEvent) : handler :=
  fun _ => [React.Update (setPassword (target_value e))].

Definition validatePassword (pass : jsstring) : bool :=
  if length pass <? 8 then false else true.

Definition admin : jsstring := str "admin".

Definition success_text : jsstring := str "Login bem-sucedido!".

(** The source literal has U+00E1 (a with acute, code unit 225) in place
  of the two explicit code units below. *)
Definition failure_text : jsstring :=
  str "Usu" ++ [225%N] ++ str "rio ou senha inv" ++ [225%N] ++ str "lidos.".

Definition onFinish (values : jsval) : handler :=
  fun st =>
    React.Out (ConsoleLog [VString (str "Form values (do AntD):"); values])
    :: (if validatePassword (password st) && jsstring_eqb (username st) admin
        then [React.Out (MessageSuccess success_text)]
        else [React.Out (ConsoleError
                           [VString (str "Falha no login. Verifique os dados.")]);
              React.Out (MessageError failure_text)]).

(** The test of the [if] in [onFinish] as a proposition over the held
    cells. *)
Definition accepted (st : state) : Prop :=
  8 <= length (password st) /\ username st = admin.

(** The wiring of the JSX: which handler each user event reaches. *)
Inductive event : Type :=
| UsernameInput (e : ChangeEvent)
| PasswordInput (e : ChangeEvent)
| Finish (values : jsval).

Definition handle (ev : event) : handler :=
  match ev with
  | UsernameInput e => handleUsernameChange e
  | PasswordInput e => passwordOnChange e
  | Finish values => onFinish values
  end.

Fixpoint run (evs : list event) (st : state) : state * list output :=
  match evs with
  | [] => (st, [])
  | ev :: rest =>
      let (st1, o1) := dispatch (handle ev) st in
      let (st2, o2) := run rest st1 in
      (st2, o1 ++ o2)
  end.

(** *** The rendered form

    The props the JSX of [LoginPage] passes that carry data or behaviour;
    inline styles, icons and grid spans are left out. *)

Definition messages : list jsstring :=
  [ str "Bem-vindo de volta!";
    str "Fa" ++ [231%N] ++ str "a login para continuar." ].

(** A [<p>] of [messages.map]; the callback passes no [key]. *)
Record WelcomeLine := {
  line_key : option jsstring;
  line_text : jsstring
}.

Record Rule := {
  required : bool;
  rule_message : jsstring
}.

(** A [Form.Item] with its input. *)
Record Field := {
  field_name : jsstring;
  rules : list Rule;
  placeholder : jsstring;
  value : jsstring;
  onChange : ChangeEvent -> handler
}.

Record view := {
  heading : jsstring;
  welcome : list WelcomeLine;
  username_field : Field;
  password_field : Field;
  button_label : jsstring;
  button_htmlType : jsstring;
  form_layout : jsstring;
  form_onFinish : jsval -> handler
}.

Definition render (st : state) : view :=
  {| heading := str "Login";
     welcome :=
       map (fun msg => {| line_key := None; line_text := msg |}) messages;
     username_field :=
       {| field_name := str "username";
          rules :=
            [ {| required := true;
                 rule_message :=
                   str "Por favor, insira seu usu" ++ [225%N] ++ str "rio!" |} ];
          placeholder := str "Usu" ++ [225%N] ++ str "rio (use 'admin')";
          value := username st;
          onChange := handleUsernameChange |};
     password_field :=
       {| field_name := str "password";
          rules :=
            [ {| required := true;
                 rule_message := str "Por favor, insira sua senha!" |} ];
          placeholder := str "Senha (8+ caracteres)";
          value := password st;
          onChange := passwordOnChange |};
     button_label := str "Entrar";
     button_htmlType := str "submit";
     form_layout := str "vertical";
     form_onFinish := onFinish |}.

(** *** The antd form around the inputs

    [Form] keeps its own store of the values typed into its named items.
    Submitting checks the [rules] of every item against the stored value: a
    [required] rule rejects a value that is missing or the empty string.
    The messages of the rejected rules are shown under their own field and
    [onFinish] is not called; when no rule rejects, [onFinish] is called
    with the stored values as payload. *)
Definition store := list (jsstring * jsstring).

Fixpoint lookup (name : jsstring) (s : store) : option jsstring :=
  match s with
  | [] => None
  | (k, v) :: rest => if jsstring_eqb k name then Some v else lookup name rest
  end.

Definition isEmptyValue (v : option jsstring) : bool :=
  match v with
  | None => true
  | Some [] => true
  | Some (_ :: _) => false
  end.

Definition rejects (r : Rule) (v : option jsstring) : bool :=
  required r && isEmptyValue v.

(** What is shown under a field: its name with the message of each
    rejected rule. *)
Definition field_errors (f : Field) (v : option jsstring)
  : list (jsstring * jsstring) :=
  map (fun r => (field_name f, rule_message r))
      (filter (fun r => rejects r v) (rules f)).

Definition fields (vw : view) : list Field :=
  [username_field vw; password_field vw].

Definition validateFields (vw : view) (s : store)
  : list (jsstring * jsstring) :=
  flat_map (fun f => field_errors f (lookup (field_name f) s)) (fields vw).

Definition stored (v : option jsstring) : jsval :=
  match v with
  | None => VUndefined
  | Some x => VString x
  end.

Fixpoint payload_fields (fs : list Field) (s : store) : jsfields :=
  match fs with
  | [] => FNil
  | f :: rest =>
      FCons (field_name f) (stored (lookup (field_name f) s))
            (payload_fields rest s)
  end.

Definition payload (vw : view) (s : store) : jsval :=
  VObject (payload_fields (fields vw) s).

(** The outcome of pressing the submit button. *)
Record submission := {
  field_feedback : list (jsstring * jsstring);
  after : state;
  shown : list output
}.

Definition submit (s : store) (st : state) : submission :=
  match validateFields (render st) s with
  | [] =>
      let (st', out) :=
        dispatch (form_onFinish (render st) (payload (render st) s)) st in
      {| field_feedback := []; after := st'; shown := out |}
  | errs => {| field_feedback := errs; after := st; shown := [] |}
  end.

(** *** Reading a trace of events *)

(** The value the last [UsernameInput] of a trace carries, [u] if there is
    none. *)
Fixpoint typed_username (evs : list event) (u : jsstring) : jsstring :=
  match evs with
  | [] => u
  | UsernameInput e :: rest => typed_username rest (target_value e)
  | _ :: rest => typed_username rest u
  end.

Fixpoint typed_password (evs : list event) (p : jsstring) : jsstring :=
  match evs with
  | [] => p
  | PasswordInput e :: rest => typed_password rest (target_value e)
  | _ :: rest => typed_password rest p
  end.

(** The payloads submitted in a trace, in order. *)
Fixpoint submitted (evs : list event) : list jsval :=
  match evs with
  | [] => []
  | Finish values :: rest => values :: submitted rest
  | _ :: rest => submitted rest
  end.

End LoginPage.

(** ** The demo Login component *)
Module Login.

Record state := {
  password : jsstring;
  email : jsstring
}.

Definition initial : state := {| password := []; email := [] |}.

Inductive setter : Type :=
| setPassword (v : jsstring)
| setEmail (v : jsstring).

Definition apply (u : setter) (st : state) : state :=
  match u with
  | setPassword v => {| password := v; email := email st |}
  | setEmail v => {| password := password st; email := v |}
  end.

Definition handler := React.handler state setter.

(** The two [useEffect] calls, keyed on [email] and on [password]. *)
Definition effects : list (React.effect_hook state) :=
  [ {| React.deps := fun st => [email st];
       React.body := fun st => [ConsoleLog [VString (email st)]] |};
    {| React.deps := fun st => [password st];
       React.body := fun st => [ConsoleLog [VString (password st)]] |} ].

Definition dispatch (h : handler) (st : state) : state * list output :=
  React.dispatch apply effects h st.

Definition mount : list output := React.mount effects initial.

Definition handleEntrar : handler :=
  fun st =>
    [React.Out (ConsoleLog [VString (str "email:"); VString (email st)]);
     React.Out (ConsoleLog [VString (str "password:"); VString (password st)])].

(** The inline [onChange] of the two inputs. *)
Definition emailOnChange (e : ChangeEvent) : handler :=
  fun _ => [React.Update (setEmail (target_value e))].

Definition passwordOnChange (e : ChangeEvent) : handler :=
  fun _ => [React.Update (setPassword (target_value e))].

(** The wiring of the JSX: the [onChange] of the two inputs and the
    [onClick] of the button, which has [type="button"]. *)
Inductive event : Type :=
| EmailInput (e : ChangeEvent)
| PasswordInput (e : ChangeEvent)
| Entrar.

Definition handle (ev : event) : handler :=
  match ev with
  | EmailInput e => emailOnChange e
  | PasswordInput e => passwordOnChange e
  | Entrar => handleEntrar
  end.

Fixpoint run (evs : list event) (st : state) : state * list output :=
  match evs with
  | [] => (st, [])
  | ev :: rest =>
      let (st1, o1) := dispatch (handle ev) st in
      let (st2, o2) := run rest st1 in
      (st2, o1 ++ o2)
  end.

End Login.

(** ** src/pages/Home.tsx *)
Module Home.

Record TechInfo := {
  id : jsstring;
  name : jsstring;
  logoUrl : jsstring;
  description : jsstring
}.

(** Code units above 127 and the double quote (34) are written out. *)
Definition techStackData : list TechInfo :=
  [ {| id := str "vite";
       name := str "Vite";
       logoUrl := str "https://vitejs.dev/logo.svg";
       description :=
         str "Um " ++ [34%N] ++ str "build tool" ++ [34%N]
         ++ str " para front-end moderno que oferece uma experi" ++ [234%N]
         ++ str "ncia de desenvolvimento extremamente r" ++ [225%N]
         ++ str "pida, com Hot Module Replacement (HMR) instant" ++ [226%N]
         ++ str "neo." |};
    {| id := str "react";
       name := str "React";
       logoUrl :=
         str "https://upload.wikimedia.org/wikipedia/commons/a/a7/React-icon.svg";
       description :=
         str "Uma biblioteca JavaScript declarativa, eficiente e flex"
         ++ [237%N] ++ str "vel para criar interfaces de usu" ++ [225%N]
         ++ str "rio (UIs) complexas, baseada em componentes reutiliz"
         ++ [225%N] ++ str "veis." |};
    {| id := str "typescript";
       name := str "TypeScript";
       logoUrl :=
         str "https://upload.wikimedia.org/wikipedia/commons/4/4c/Typescript_logo_2020.svg";
       description :=
         str "Um superset do JavaScript que adiciona tipagem est" ++ [225%N]
         ++ str "tica opcional. Ajuda a construir aplica" ++ [231%N; 245%N]
         ++ str "es robustas, detectar erros em tempo de compila"
         ++ [231%N; 227%N] ++ str "o e melhorar a manutenibilidade." |};
    {| id := str "ant-design";
       name := str "Ant Design (antd)";
       logoUrl :=
         str "https://gw.alipayobjects.com/zos/rmsportal/KDpgvguMpGfqaHPjicRK.svg";
       description :=
         str "Uma biblioteca de componentes de UI para React, seguindo a linguagem de design Ant. Oferece um conjunto rico de componentes de alta qualidade e prontos para uso." |} ].

(** The elements [renderTechCards] builds, with the props it passes. *)
Record Avatar := {
  src : jsstring;
  shape : jsstring;
  size : N;
  alt : jsstring
}.

Record Title := { level : N; title_text : jsstring }.

Record Paragraph := { paragraph_text : jsstring }.

Record CardMeta := {
  avatar : Avatar;
  title : Title;
  meta_description : Paragraph
}.

Record Card := {
  hoverable : bool;
  style_height : jsstring;
  meta : CardMeta
}.

Record Col := {
  xs : N; sm : N; md : N; lg : N;
  key : jsstring;
  card : Card
}.

Record Row := {
  gutter : N * N;
  children : list Col
}.

(** The callback handed to [techStackData.map]. *)
Definition techCol (tech : TechInfo) : Col :=
  {| xs := 24; sm := 12; md := 12; lg := 6;
     key := id tech;
     card :=
       {| hoverable := true;
          style_height := str "100%";
          meta :=
            {| avatar := {| src := logoUrl tech;
                            shape := str "square";
                            size := 64;
                            alt := name tech ++ str " Logo" |};
               title := {| level := 4; title_text := name tech |};
               meta_description :=
                 {| paragraph_text := description tech |} |} |} |}.

Definition renderTechCards : Row :=
  {| gutter := (24%N, 24%N);
     children := map techCol techStackData |}.

(** What a card shows of a descriptor: its name, logo and description. *)
Definition displays (tech : TechInfo) (col : Col) : Prop :=
  title_text (title (meta (card col))) = name tech
  /\ src (avatar (meta (card col))) = logoUrl tech
  /\ paragraph_text (meta_description (meta (card col))) = description tech.

End Home.

(** * Properties *)

(** ** Strings and the React model *)

Lemma jsstring_eqb_eq (a b : jsstring) : jsstring_eqb a b = true <-> a = b.
Proof.
  revert b. induction a as [|x a IH]; intros [|y b]; simpl;
    try (split; [discriminate | discriminate]); try tauto.
  rewrite andb_true_iff, N.eqb_eq, IH. split.
  - intros [-> ->]. reflexivity.
  - intros H. injection H as -> ->. split; reflexivity.
Qed.

Lemma jsstring_eqb_refl (a : jsstring) : jsstring_eqb a a = true.
Proof. apply jsstring_eqb_eq. reflexivity. Qed.

Lemma jsstring_eqb_neq (a b : jsstring) : jsstring_eqb a b = false <-> a <> b.
Proof.
  rewrite <- jsstring_eqb_eq. destruct (jsstring_eqb a b); split; intros H.
  - discriminate.
  - exfalso. apply H. reflexivity.
  - discriminate.
  - reflexivity.
Qed.

Section ReactFacts.

Variables state setter : Type.
Variable apply : setter -> state -> state.
Variable effects : list (React.effect_hook state).

(** A handler that calls no setter leaves every cell as it was. *)
Lemma reduce_no_writes (acts : list (React.action setter)) (st : state) :
  React.writes acts = [] -> React.reduce apply acts st = st.
Proof.
  unfold React.reduce. revert st.
  induction acts as [|[u|o] rest IH]; intros st H; simpl in *.
  - reflexivity.
  - discriminate.
  - apply IH, H.
Qed.

(** Between two renders with the same cells no effect runs. *)
Lemma commit_same (st : state) : React.commit effects st st = [].
Proof.
  unfold React.commit. induction effects as [|e es IH]; simpl.
  - reflexivity.
  - assert (E : forall l, React.deps_eqb l l = true).
    { induction l as [|x l IHl]; simpl; [reflexivity|].
      rewrite jsstring_eqb_refl. exact IHl. }
    rewrite E. exact IH.
Qed.

Lemma dispatch_no_writes (h : React.handler state setter) (st : state) :
  React.writes (h st) = [] ->
  React.dispatch apply effects h st = (st, React.emitted (h st)).
Proof.
  intros H. unfold React.dispatch.
  rewrite (reduce_no_writes _ _ H), commit_same, app_nil_r. reflexivity.
Qed.

End ReactFacts.

(** ** The decision taken by [onFinish] *)

Section LoginPageFacts.

Import LoginPage.

Lemma validatePassword_true (pass : jsstring) :
  validatePassword pass = true <-> 8 <= length pass.
Proof.
  unfold validatePassword. destruct (Nat.ltb_spec (length pass) 8); split;
    intros; try discriminate; try reflexivity; lia.
Qed.

Lemma onFinish_test (st : state) :
  validatePassword (password st) && jsstring_eqb (username st) admin = true
  <-> accepted st.
Proof.
  unfold accepted.
  rewrite andb_true_iff, validatePassword_true, jsstring_eqb_eq. tauto.
Qed.

Lemma onFinish_writes (values : jsval) (st : state) :
  React.writes (onFinish values st) = [].
Proof.
  unfold onFinish.
  destruct (validatePassword (password st) && jsstring_eqb (username st) admin);
    reflexivity.
Qed.

Lemma onFinish_dispatch (values : jsval) (st : state) :
  dispatch (onFinish values) st = (st, React.emitted (onFinish values st)).
Proof. apply dispatch_no_writes, onFinish_writes. Qed.

Lemma onFinish_accepted (values : jsval) (st : state) :
  accepted st ->
  snd (dispatch (onFinish values) st) =
    [ConsoleLog [VString (str "Form values (do AntD):"); values];
     MessageSuccess success_text].
Proof.
  intros H. apply onFinish_test in H.
  rewrite onFinish_dispatch. unfold onFinish. rewrite H. reflexivity.
Qed.

Lemma onFinish_rejected (values : jsval) (st : state) :
  ~ accepted st ->
  snd (dispatch (onFinish values) st) =
    [ConsoleLog [VString (str "Form values (do AntD):"); values];
     ConsoleError [VString (str "Falha no login. Verifique os dados.")];
     MessageError failure_text].
Proof.
  intros H. rewrite onFinish_dispatch. unfold onFinish.
  destruct (validatePassword (password st) && jsstring_eqb (username st) admin)
    eqn:E.
  - exfalso. apply H, onFinish_test, E.
  - reflexivity.
Qed.

Lemma accepted_dec (st : state) : {accepted st} + {~ accepted st}.
Proof.
  destruct (validatePassword (password st) && jsstring_eqb (username st) admin)
    eqn:E.
  - left. apply onFinish_test, E.
  - right. intros H. apply onFinish_test in H. congruence.
Qed.

End LoginPageFacts.

(** ** Submission in LoginPage *)

Section Submission.

Import LoginPage.

(** C1. [onFinish] shows the success notification exactly when the held
    password has at least 8 code units and the held username is 'admin', and
    shows the failure notification in every other case; either way it is the
    only notification of that submission. *)
Theorem onFinish_success_iff : forall (values : jsval) (st : state),
  (notifications (snd (dispatch (onFinish values) st))
     = [MessageSuccess success_text]
   <-> 8 <= length (password st) /\ username st = admin)
  /\
  (notifications (snd (dispatch (onFinish values) st))
     = [MessageError failure_text]
   <-> ~ (8 <= length (password st) /\ username st = admin)).
Proof.
  intros values st. fold (accepted st).
  destruct (accepted_dec st) as [Y|N].
  - rewrite (onFinish_accepted values Y). simpl. split; split; intros H.
    + exact Y.
    + reflexivity.
    + discriminate H.
    + contradiction.
  - rewrite (onFinish_rejected values N). simpl. split; split; intros H.
    + discriminate H.
    + contradiction.
    + exact N.
    + reflexivity.
Qed.

(** C4. The three scenarios of the specification, whatever payload the form
    hands over: 'admin' with 'password123' gives one success notification,
    'guest' with 'password123' and 'admin' with 'short' give one failure
    notification each. *)
Theorem onFinish_scenarios : forall (values : jsval) (l : bool),
  notifications
    (snd (dispatch (onFinish values)
            {| username := str "admin"; password := str "password123";
               loading := l |}))
    = [MessageSuccess success_text]
  /\
  notifications
    (snd (dispatch (onFinish values)
            {| username := str "guest"; password := str "password123";
               loading := l |}))
    = [MessageError failure_text]
  /\
  notifications
    (snd (dispatch (onFinish values)
            {| username := str "admin"; password := str "short";
               loading := l |}))
    = [MessageError failure_text].
Proof.
  intros values l. repeat split; reflexivity.
Qed.

(** The first scenario driven through the inputs, from the initial render:
    typing both fields and submitting. *)
Example typed_admin_succeeds (values : jsval) :
  run [UsernameInput {| target_value := str "admin" |};
       PasswordInput {| target_value := str "password123" |};
       Finish values] initial
  = ({| username := str "admin"; password := str "password123";
        loading := false |},
     [ConsoleLog [VString (str "Form values (do AntD):"); values];
      MessageSuccess success_text]).
Proof. reflexivity. Qed.

(** C5. A held password shorter than 8 code units leads to the failure
    notification, whatever the held username. *)
Theorem short_secret_fails : forall (values : jsval) (st : state),
  length (password st) < 8 ->
  notifications (snd (dispatch (onFinish values) st))
    = [MessageError failure_text].
Proof.
  intros values st H. rewrite onFinish_rejected.
  - reflexivity.
  - unfold accepted. lia.
Qed.

Lemma short_secret_fails_witness :
  length (password {| username := str "admin"; password := str "short";
                      loading := false |}) < 8
  /\ notifications
       (snd (dispatch (onFinish VUndefined)
               {| username := str "admin"; password := str "short";
                  loading := false |}))
     = [MessageError failure_text].
Proof.
  split; [simpl; lia | apply short_secret_fails; simpl; lia].
Defined.

(** The field-level feedback of the form, read off the rules of the two
    items. *)
Lemma validateFields_render (s : store) (st : state) :
  validateFields (render st) s
  = (if isEmptyValue (lookup (str "username") s)
     then [(str "username",
            str "Por favor, insira seu usu" ++ [225%N] ++ str "rio!")]
     else [])
    ++ (if isEmptyValue (lookup (str "password") s)
        then [(str "password", str "Por favor, insira sua senha!")]
        else []).
Proof.
  unfold validateFields, fields, field_errors, rejects.
  cbn [render username_field password_field flat_map field_name rules filter
       map required rule_message andb].
  destruct (isEmptyValue (lookup (str "username") s));
    destruct (isEmptyValue (lookup (str "password") s)); reflexivity.
Qed.

Lemma submit_filled (s : store) (st : state) :
  isEmptyValue (lookup (str "username") s)
  || isEmptyValue (lookup (str "password") s) = false ->
  submit s st
  = {| field_feedback := [];
       after := st;
       shown := snd (dispatch (onFinish (payload (render st) s)) st) |}.
Proof.
  intros H. apply orb_false_iff in H. destruct H as [Hu Hp].
  unfold submit. rewrite validateFields_render, Hu, Hp.
  cbn [app form_onFinish render]. rewrite onFinish_dispatch. reflexivity.
Qed.

Lemma submit_empty (s : store) (st : state) :
  isEmptyValue (lookup (str "username") s)
  || isEmptyValue (lookup (str "password") s) = true ->
  submit s st
  = {| field_feedback := validateFields (render st) s;
       after := st;
       shown := [] |}.
Proof.
  intros H. unfold submit.
  destruct (validateFields (render st) s) as [|err errs] eqn:E.
  - exfalso. rewrite validateFields_render in E.
    destruct (isEmptyValue (lookup (str "username") s));
      destruct (isEmptyValue (lookup (str "password") s));
      simpl in H; discriminate.
  - reflexivity.
Qed.

(** With 'admin' typed and the password field left empty the secret is too
    short, yet pressing the button shows the required message under the
    password field and no notification: [onFinish] is not reached. *)
Lemma empty_secret_gets_field_feedback :
  length (password {| username := str "admin"; password := [];
                      loading := false |}) < 8
  /\ field_feedback
       (submit [(str "username", str "admin")]
               {| username := str "admin"; password := [];
                  loading := false |})
     = [(str "password", str "Por favor, insira sua senha!")]
  /\ notifications
       (shown
          (submit [(str "username", str "admin")]
                  {| username := str "admin"; password := [];
                     loading := false |}))
     = [].
Proof.
  split; [simpl; lia | split; reflexivity].
Qed.

(** C8, as the code has it.  When [onFinish] runs and its test fails,
    because the held password is too short or because the held username is
    not 'admin', what it shows the user is the one notification with the
    fixed text [failure_text]; two failing calls are told apart by nothing
    the user sees.  Field-level feedback comes from the required rules of
    the form instead: pressing the button with a missing or empty username
    or password in the form shows the message of that field under it, calls
    no [onFinish] and shows no notification; with both fields filled it
    shows no field-level feedback and what [onFinish] shows.  The cells are
    left as they were in every case. *)
Theorem validation_failure_reports :
  forall (v1 v2 : jsval) (st1 st2 : state) (s : store),
  length (password st1) < 8 \/ username st1 <> admin ->
  length (password st2) < 8 \/ username st2 <> admin ->
  notifications (snd (dispatch (onFinish v1) st1)) = [MessageError failure_text]
  /\ notifications (snd (dispatch (onFinish v1) st1))
     = notifications (snd (dispatch (onFinish v2) st2))
  /\ field_feedback (submit s st1)
     = (if isEmptyValue (lookup (str "username") s)
        then [(str "username",
               str "Por favor, insira seu usu" ++ [225%N] ++ str "rio!")]
        else [])
       ++ (if isEmptyValue (lookup (str "password") s)
           then [(str "password", str "Por favor, insira sua senha!")]
           else [])
  /\ shown (submit s st1)
     = (if isEmptyValue (lookup (str "username") s)
           || isEmptyValue (lookup (str "password") s)
        then []
        else [ConsoleLog [VString (str "Form values (do AntD):");
                          payload (render st1) s];
              ConsoleError
                [VString (str "Falha no login. Verifique os dados.")];
              MessageError failure_text])
  /\ after (submit s st1) = st1.
Proof.
  intros v1 v2 st1 st2 s H1 H2.
  assert (N1 : ~ accepted st1)
    by (unfold accepted; intros [A B]; destruct H1; [lia | contradiction]).
  assert (N2 : ~ accepted st2)
    by (unfold accepted; intros [A B]; destruct H2; [lia | contradiction]).
  rewrite (onFinish_rejected v1 N1), (onFinish_rejected v2 N2).
  split; [reflexivity|]. split; [reflexivity|].
  destruct (isEmptyValue (lookup (str "username") s)
            || isEmptyValue (lookup (str "password") s)) eqn:E.
  - rewrite (submit_empty s st1 E). cbn [field_feedback shown after].
    rewrite validateFields_render. repeat split.
  - rewrite (submit_filled s st1 E). cbn [field_feedback shown after].
    rewrite (onFinish_rejected _ N1).
    apply orb_false_iff in E. destruct E as [Eu Ep]. rewrite Eu, Ep.
    repeat split.
Qed.

Lemma validation_failure_reports_witness :
  (length (password {| username := str "admin"; password := str "short";
                       loading := false |}) < 8
   \/ username {| username := str "admin"; password := str "short";
                  loading := false |} <> admin)
  /\ (length (password {| username := str "guest";
                          password := str "password123";
                          loading := false |}) < 8
      \/ username {| username := str "guest"; password := str "password123";
                     loading := false |} <> admin)
  /\ notifications
       (snd (dispatch (onFinish VUndefined)
               {| username := str "admin"; password := str "short";
                  loading := false |}))
     = [MessageError failure_text]
  /\ shown
       (submit [(str "username", str "admin"); (str "password", str "short")]
               {| username := str "admin"; password := str "short";
                  loading := false |})
     = [ConsoleLog
          [VString (str "Form values (do AntD):");
           VObject (FCons (str "username") (VString (str "admin"))
                   (FCons (str "password") (VString (str "short")) FNil))];
        ConsoleError [VString (str "Falha no login. Verifique os dados.")];
        MessageError failure_text].
Proof.
  assert (S : length (str "short") < 8) by (simpl; lia).
  assert (G : str "guest" <> admin)
    by (intros E; vm_compute in E; discriminate E).
  split; [left; exact S | split; [right; exact G |]].
  pose proof
    (validation_failure_reports VUndefined VNull
       {| username := str "admin"; password := str "short"; loading := false |}
       {| username := str "guest"; password := str "password123";
          loading := false |}
       [(str "username", str "admin"); (str "password", str "short")]
       (or_introl S) (or_intror G)) as W.
  destruct W as [W1 [_ [_ [W4 _]]]].
  split; [exact W1 | exact W4].
Defined.

(** C9. The notification does not depend on the payload [values]: with the
    same held cells, any two payloads lead to the same notification. *)
Theorem onFinish_ignores_values : forall (v1 v2 : jsval) (st : state),
  notifications (snd (dispatch (onFinish v1) st))
  = notifications (snd (dispatch (onFinish v2) st)).
Proof.
  intros v1 v2 st. destruct (accepted_dec st) as [Y|N].
  - rewrite (onFinish_accepted v1 Y), (onFinish_accepted v2 Y). reflexivity.
  - rewrite (onFinish_rejected v1 N), (onFinish_rejected v2 N). reflexivity.
Qed.

(** The hazard behind it: a payload carrying accepted credentials is refused
    when the cells are still empty. *)
Example payload_and_cells_disagree :
  notifications
    (snd (dispatch
            (onFinish
               (VObject (FCons (str "username") (VString (str "admin"))
                        (FCons (str "password") (VString (str "password123"))
                         FNil))))
            initial))
  = [MessageError failure_text].
Proof. reflexivity. Qed.

End Submission.

(** ** Console output *)

(** LoginPage registers no effect and its change handlers print nothing:
    typing a first character changes the username cell and leaves the console
    untouched. *)
Lemma LoginPage_keystroke_silent :
  LoginPage.username
    (fst (LoginPage.dispatch
            (LoginPage.handleUsernameChange {| target_value := str "a" |})
            LoginPage.initial))
    <> LoginPage.username LoginPage.initial
  /\ console
       (snd (LoginPage.dispatch
               (LoginPage.handleUsernameChange {| target_value := str "a" |})
               LoginPage.initial))
     = [].
Proof.
  split.
  - intros E. vm_compute in E. discriminate E.
  - reflexivity.
Qed.

(** The demo Login prints both (empty) cells after the first render, and
    the new email after a keystroke in the email input. *)
Example Login_mount_logs :
  Login.mount = [ConsoleLog [VString []]; ConsoleLog [VString []]].
Proof. reflexivity. Qed.

Example Login_keystroke_logs :
  Login.dispatch (Login.emailOnChange {| target_value := str "a" |})
                 Login.initial
  = ({| Login.password := []; Login.email := str "a" |},
     [ConsoleLog [VString (str "a")]]).
Proof. reflexivity. Qed.

(** C2, as the code has it.  Every submission prints to the console in both
    variants: [onFinish] logs the payload first, [handleEntrar] logs the email
    and the password.  In the demo Login every change of a cell prints the new
    value (through its [useEffect]), and a setter call with the value already
    held prints nothing.  In LoginPage the change handlers print nothing. *)
Theorem console_output_by_variant :
  (forall values st, exists rest,
      console (snd (LoginPage.dispatch (LoginPage.onFinish values) st))
      = ConsoleLog [VString (str "Form values (do AntD):"); values] :: rest)
  /\ (forall st,
      console (snd (Login.dispatch Login.handleEntrar st))
      = [ConsoleLog [VString (str "email:"); VString (Login.email st)];
         ConsoleLog [VString (str "password:"); VString (Login.password st)]])
  /\ (forall e st,
      console (snd (Login.dispatch (Login.emailOnChange e) st))
      = if jsstring_eqb (Login.email st) (target_value e) then []
        else [ConsoleLog [VString (target_value e)]])
  /\ (forall e st,
      console (snd (Login.dispatch (Login.passwordOnChange e) st))
      = if jsstring_eqb (Login.password st) (target_value e) then []
        else [ConsoleLog [VString (target_value e)]])
  /\ (forall e st,
      snd (LoginPage.dispatch (LoginPage.handleUsernameChange e) st) = [])
  /\ (forall e st,
      snd (LoginPage.dispatch (LoginPage.passwordOnChange e) st) = []).
Proof.
  repeat apply conj.
  - intros values st. destruct (accepted_dec st) as [Y|N].
    + rewrite (onFinish_accepted values Y). simpl. eexists. reflexivity.
    + rewrite (onFinish_rejected values N). simpl. eexists. reflexivity.
  - intros st. unfold Login.dispatch, React.dispatch.
    rewrite reduce_no_writes by reflexivity.
    rewrite commit_same. reflexivity.
  - intros e [p m]. unfold Login.dispatch, React.dispatch, React.commit. simpl.
    rewrite jsstring_eqb_refl. simpl.
    destruct (jsstring_eqb m (target_value e)); reflexivity.
  - intros e [p m]. unfold Login.dispatch, React.dispatch, React.commit. simpl.
    rewrite jsstring_eqb_refl. simpl.
    destruct (jsstring_eqb p (target_value e)); reflexivity.
  - intros e st. reflexivity.
  - intros e st. reflexivity.
Qed.

(** ** What the login action does *)

(** [handleEntrar] shows no notification: at the initial render its output is
    the two console lines and nothing else. *)
Lemma handleEntrar_no_notification :
  notifications (snd (Login.dispatch Login.handleEntrar Login.initial)) = []
  /\ snd (Login.dispatch Login.handleEntrar Login.initial)
     = [ConsoleLog [VString (str "email:"); VString []];
        ConsoleLog [VString (str "password:"); VString []]].
Proof. split; reflexivity. Qed.

(** C3, as the code has it.  [onFinish] of LoginPage calls no setter and
    leaves the cells as they were; all it does is print the payload to the
    console and then either show the success notification, or print the
    console error line and show the failure notification: exactly one
    notification either way.  [handleEntrar] of the demo Login calls no
    setter and only prints its two console lines; it shows no
    notification. *)
Theorem login_action_effects :
  (forall values st,
      React.writes (LoginPage.onFinish values st) = []
      /\ fst (LoginPage.dispatch (LoginPage.onFinish values) st) = st
      /\ (snd (LoginPage.dispatch (LoginPage.onFinish values) st)
          = [ConsoleLog [VString (str "Form values (do AntD):"); values];
             MessageSuccess LoginPage.success_text]
          \/ snd (LoginPage.dispatch (LoginPage.onFinish values) st)
             = [ConsoleLog [VString (str "Form values (do AntD):"); values];
                ConsoleError
                  [VString (str "Falha no login. Verifique os dados.")];
                MessageError LoginPage.failure_text])
      /\ length (notifications
                   (snd (LoginPage.dispatch (LoginPage.onFinish values) st)))
         = 1)
  /\ (forall st,
      React.writes (Login.handleEntrar st) = []
      /\ fst (Login.dispatch Login.handleEntrar st) = st
      /\ snd (Login.dispatch Login.handleEntrar st)
         = [ConsoleLog [VString (str "email:"); VString (Login.email st)];
            ConsoleLog [VString (str "password:");
                        VString (Login.password st)]]
      /\ notifications (snd (Login.dispatch Login.handleEntrar st)) = []).
Proof.
  split.
  - intros values st. split; [apply onFinish_writes|].
    split; [rewrite onFinish_dispatch; reflexivity|].
    destruct (accepted_dec st) as [Y|N].
    + rewrite (onFinish_accepted values Y). split; [left|]; reflexivity.
    + rewrite (onFinish_rejected values N). split; [right|]; reflexivity.
  - intros st.
    assert (D : Login.dispatch Login.handleEntrar st
                = (st, React.emitted (Login.handleEntrar st)))
      by (apply dispatch_no_writes; reflexivity).
    rewrite D. repeat split.
Qed.

(** ** Frame properties *)

(** C7. Setting the identifier leaves the held secret as it was and setting
    the secret leaves the held identifier as it was, for the setters and for
    the change handlers that call them, in LoginPage and in the demo Login. *)
Theorem field_independence :
  (forall v st,
      LoginPage.password (LoginPage.apply (LoginPage.setUsername v) st)
      = LoginPage.password st)
  /\ (forall v st,
      LoginPage.username (LoginPage.apply (LoginPage.setPassword v) st)
      = LoginPage.username st)
  /\ (forall e st,
      LoginPage.password
        (fst (LoginPage.dispatch (LoginPage.handleUsernameChange e) st))
      = LoginPage.password st)
  /\ (forall e st,
      LoginPage.username
        (fst (LoginPage.dispatch (LoginPage.passwordOnChange e) st))
      = LoginPage.username st)
  /\ (forall v st,
      Login.password (Login.apply (Login.setEmail v) st) = Login.password st)
  /\ (forall v st,
      Login.email (Login.apply (Login.setPassword v) st) = Login.email st)
  /\ (forall e st,
      Login.password (fst (Login.dispatch (Login.emailOnChange e) st))
      = Login.password st)
  /\ (forall e st,
      Login.email (fst (Login.dispatch (Login.passwordOnChange e) st))
      = Login.email st).
Proof.
  repeat apply conj; intros; reflexivity.
Qed.

(** C10. A submission writes no cell: after [onFinish] the username, the
    password and the loading flag of LoginPage are the ones held before, on
    the success and on the failure branch, and after [handleEntrar] the email
    and the password of the demo Login are the ones held before. *)
Theorem submission_keeps_state :
  (forall values st,
      fst (LoginPage.dispatch (LoginPage.onFinish values) st) = st)
  /\ (forall st, fst (Login.dispatch Login.handleEntrar st) = st).
Proof.
  split.
  - intros values st. rewrite onFinish_dispatch. reflexivity.
  - intros st. unfold Login.dispatch.
    rewrite dispatch_no_writes by reflexivity. reflexivity.
Qed.

(** ** The Home view *)

Section HomeFacts.

Import Home.

(** The callback shows the descriptor it is given and keys it by its id. *)
Lemma techCol_displays (tech : TechInfo) :
  displays tech (techCol tech) /\ key (techCol tech) = id tech.
Proof. repeat split. Qed.

(** Mapping it over any list of descriptors gives one card per descriptor,
    in order. *)
Lemma map_techCol_displays (data : list TechInfo) :
  Forall2 displays data (map techCol data).
Proof.
  induction data as [|tech rest IH]; simpl; constructor.
  - apply techCol_displays.
  - exact IH.
Qed.

Lemma map_techCol_keys (data : list TechInfo) :
  map key (map techCol data) = map id data.
Proof. rewrite map_map. reflexivity. Qed.

Lemma techStackData_ids_distinct : NoDup (map id techStackData).
Proof.
  vm_compute.
  repeat (constructor;
          [ simpl; intros H;
            repeat (destruct H as [H|H]; [discriminate H|]); exact H | ]).
  constructor.
Qed.

(** C6. [renderTechCards] produces one card per entry of [techStackData],
    four in all; the card at each position shows the name, the logo URL and
    the description of the descriptor at that position; and the keys of the
    cards, which are the ids of the descriptors, are pairwise distinct. *)
Theorem renderTechCards_cards :
  length (children renderTechCards) = length techStackData
  /\ length (children renderTechCards) = 4
  /\ Forall2 displays techStackData (children renderTechCards)
  /\ map key (children renderTechCards) = map id techStackData
  /\ NoDup (map key (children renderTechCards)).
Proof.
  change (children renderTechCards) with (map techCol techStackData).
  split; [apply length_map|].
  split; [reflexivity|].
  split; [apply map_techCol_displays|].
  split; [apply map_techCol_keys|].
  rewrite map_techCol_keys. apply techStackData_ids_distinct.
Qed.

End HomeFacts.

(** ** Traces of events in LoginPage *)

Section LoginPageTraces.

Import LoginPage.

Lemma dispatch_UsernameInput (e : ChangeEvent) (st : state) :
  dispatch (handle (UsernameInput e)) st
  = ({| username := target_value e; password := password st;
        loading := loading st |}, []).
Proof. reflexivity. Qed.

Lemma dispatch_PasswordInput (e : ChangeEvent) (st : state) :
  dispatch (handle (PasswordInput e)) st
  = ({| username := username st; password := target_value e;
        loading := loading st |}, []).
Proof. reflexivity. Qed.

Lemma dispatch_Finish (values : jsval) (st : state) :
  dispatch (handle (Finish values)) st
  = (st, React.emitted (onFinish values st)).
Proof. apply onFinish_dispatch. Qed.

Lemma run_cons (ev : event) (rest : list event) (st : state) :
  run (ev :: rest) st
  = (fst (run rest (fst (dispatch (handle ev) st))),
     snd (dispatch (handle ev) st)
     ++ snd (run rest (fst (dispatch (handle ev) st)))).
Proof.
  change (run (ev :: rest) st)
    with (let (st1, o1) := dispatch (handle ev) st in
          let (st2, o2) := run rest st1 in (st2, o1 ++ o2)).
  destruct (dispatch (handle ev) st) as [st1 o1]. cbn [fst snd].
  destruct (run rest st1) as [st2 o2]. reflexivity.
Qed.

(** Running a trace in two parts. *)
Lemma run_app (a b : list event) (st : state) :
  run (a ++ b) st
  = (fst (run b (fst (run a st))), snd (run a st) ++ snd (run b (fst (run a st)))).
Proof.
  revert st. induction a as [|ev a IH]; intros st.
  - simpl. destruct (run b st). reflexivity.
  - rewrite <- app_comm_cons, !run_cons, IH. simpl.
    rewrite app_assoc. reflexivity.
Qed.

Lemma emitted_onFinish_cases (values : jsval) (st : state) :
  React.emitted (onFinish values st)
  = [ConsoleLog [VString (str "Form values (do AntD):"); values];
     MessageSuccess success_text]
  \/ React.emitted (onFinish values st)
     = [ConsoleLog [VString (str "Form values (do AntD):"); values];
        ConsoleError [VString (str "Falha no login. Verifique os dados.")];
        MessageError failure_text].
Proof.
  unfold onFinish.
  destruct (validatePassword (password st) && jsstring_eqb (username st) admin);
    [left | right]; reflexivity.
Qed.

End LoginPageTraces.

Section LoginPageTraceProperties.

Import LoginPage.

Lemma run_fst (evs : list event) (st : state) :
  fst (run evs st)
  = {| username := typed_username evs (username st);
       password := typed_password evs (password st);
       loading := loading st |}.
Proof.
  revert st. induction evs as [|ev rest IH]; intros st.
  - destruct st; reflexivity.
  - rewrite run_cons. cbn [fst]. rewrite IH.
    destruct ev as [e|e|values].
    + rewrite dispatch_UsernameInput. reflexivity.
    + rewrite dispatch_PasswordInput. reflexivity.
    + rewrite dispatch_Finish. reflexivity.
Qed.

Lemma notifications_onFinish (values : jsval) (st : state) :
  notifications (React.emitted (onFinish values st))
  = notifications (React.emitted (onFinish VUndefined st)).
Proof.
  unfold onFinish.
  destruct (validatePassword (password st) && jsstring_eqb (username st) admin);
    reflexivity.
Qed.

Lemma emitted_onFinish_cells (values : jsval) (u p : jsstring) (l1 l2 : bool) :
  React.emitted
    (onFinish values {| username := u; password := p; loading := l1 |})
  = React.emitted
      (onFinish values {| username := u; password := p; loading := l2 |}).
Proof. reflexivity. Qed.

(** X1. After any trace of input and submit events the username cell holds
    the value of the last username input, the password cell the value of the
    last password input (each keeps its initial value when the trace has no
    such input), and the loading flag is the initial one. *)
Theorem run_last_write_wins : forall (evs : list event) (st : state),
  username (fst (run evs st)) = typed_username evs (username st)
  /\ password (fst (run evs st)) = typed_password evs (password st)
  /\ loading (fst (run evs st)) = loading st.
Proof.
  intros evs st. rewrite run_fst. repeat split.
Qed.

(** X2. The loading cell is dead: no trace writes it, and starting from two
    states that differ only in it, every trace produces the same output and
    ends in the same rendered view. *)
Theorem loading_is_dead :
  forall (evs : list event) (u p : jsstring) (l1 l2 : bool),
  loading (fst (run evs {| username := u; password := p; loading := l1 |}))
    = l1
  /\ snd (run evs {| username := u; password := p; loading := l1 |})
     = snd (run evs {| username := u; password := p; loading := l2 |})
  /\ render (fst (run evs {| username := u; password := p; loading := l1 |}))
     = render (fst (run evs {| username := u; password := p; loading := l2 |})).
Proof.
  intros evs u p l1 l2. split; [|split].
  - rewrite run_fst. reflexivity.
  - revert u p. induction evs as [|ev rest IH]; intros u p.
    + reflexivity.
    + rewrite !run_cons. cbn [snd].
      destruct ev as [e|e|values].
      * rewrite !dispatch_UsernameInput. cbn [fst snd]. apply IH.
      * rewrite !dispatch_PasswordInput. cbn [fst snd]. apply IH.
      * rewrite !dispatch_Finish. cbn [fst snd].
        rewrite (emitted_onFinish_cells values u p l1 l2), IH. reflexivity.
  - rewrite !run_fst. reflexivity.
Qed.

(** X3. A trace shows exactly one notification per submission, and all its
    output comes from submissions: between two and three lines for each, so
    a trace of input events alone is silent. *)
Theorem one_notification_per_submission :
  forall (evs : list event) (st : state),
  length (notifications (snd (run evs st))) = length (submitted evs)
  /\ 2 * length (submitted evs) <= length (snd (run evs st))
  /\ length (snd (run evs st)) <= 3 * length (submitted evs).
Proof.
  intros evs. induction evs as [|ev rest IH]; intros st.
  - simpl. lia.
  - rewrite run_cons. cbn [snd]. unfold notifications in *.
    rewrite filter_app, !length_app.
    destruct ev as [e|e|values].
    + rewrite dispatch_UsernameInput. cbn [fst snd filter length submitted].
      apply IH.
    + rewrite dispatch_PasswordInput. cbn [fst snd filter length submitted].
      apply IH.
    + rewrite dispatch_Finish. cbn [fst snd submitted].
      specialize (IH st).
      destruct (emitted_onFinish_cases values st) as [E|E]; rewrite E;
        simpl; lia.
Qed.

(** X4. Every output of a trace is one of four things: the fixed success
    notification, the fixed failure notification, the fixed console error
    line, or the console line logging a payload that was submitted in the
    trace.  The submitted payload, which holds what was typed into the form,
    is the only variable data a trace prints. *)
Theorem outputs_fixed_or_payload : forall (evs : list event) (st : state),
  Forall
    (fun o =>
       o = MessageSuccess success_text
       \/ o = MessageError failure_text
       \/ o = ConsoleError [VString (str "Falha no login. Verifique os dados.")]
       \/ exists values,
            In values (submitted evs)
            /\ o = ConsoleLog [VString (str "Form values (do AntD):"); values])
    (snd (run evs st)).
Proof.
  intros evs. induction evs as [|ev rest IH]; intros st.
  - constructor.
  - rewrite run_cons. cbn [snd]. apply Forall_app. split.
    + destruct ev as [e|e|values].
      * rewrite dispatch_UsernameInput. constructor.
      * rewrite dispatch_PasswordInput. constructor.
      * rewrite dispatch_Finish. cbn [snd].
        assert (P : exists v, In v (submitted (Finish values :: rest))
                    /\ ConsoleLog [VString (str "Form values (do AntD):"); values]
                       = ConsoleLog [VString (str "Form values (do AntD):"); v]).
        { exists values. split; [left; reflexivity | reflexivity]. }
        destruct (emitted_onFinish_cases values st) as [E|E]; rewrite E;
          repeat constructor; tauto.
    + eapply Forall_impl; [|apply IH].
      intros o [H|[H|[H|[v [Hin H]]]]]; auto.
      right. right. right. exists v. split; [|exact H].
      destruct ev; simpl; auto.
Qed.

(** X5. There is no lockout: after any trace, including failed submissions,
    typing 'admin' and a password of at least 8 code units and submitting
    adds the success notification to what the trace had shown. *)
Theorem no_lockout :
  forall (evs : list event) (st : state) (p : jsstring) (values : jsval),
  8 <= length p ->
  notifications
    (snd (run (evs ++ [UsernameInput {| target_value := admin |};
                       PasswordInput {| target_value := p |};
                       Finish values]) st))
  = notifications (snd (run evs st)) ++ [MessageSuccess success_text].
Proof.
  intros evs st p values H. rewrite run_app. cbn [snd].
  unfold notifications. rewrite filter_app. f_equal.
  rewrite !run_cons, dispatch_UsernameInput. cbn [fst snd].
  rewrite dispatch_PasswordInput. cbn [fst snd].
  rewrite dispatch_Finish. cbn [fst snd run].
  unfold onFinish. cbn [password username target_value].
  assert (T : validatePassword p && jsstring_eqb admin admin = true).
  { rewrite andb_true_iff, validatePassword_true, jsstring_eqb_eq. tauto. }
  rewrite T. reflexivity.
Qed.

Lemma no_lockout_witness :
  8 <= length (str "password123")
  /\ notifications
       (snd (run ([Finish VNull]
                  ++ [UsernameInput {| target_value := admin |};
                      PasswordInput {| target_value := str "password123" |};
                      Finish VUndefined]) initial))
     = notifications (snd (run [Finish VNull] initial))
       ++ [MessageSuccess success_text].
Proof.
  split; [simpl; lia | apply no_lockout; simpl; lia].
Defined.

(** X6. [validatePassword] looks at the length only: a password at least as
    long as an accepted one is accepted, whatever its characters. *)
Theorem validatePassword_length_only : forall (p q : jsstring),
  length p <= length q ->
  validatePassword p = true ->
  validatePassword q = true.
Proof.
  intros p q L H. apply validatePassword_true in H.
  apply validatePassword_true. lia.
Qed.

Lemma validatePassword_length_only_witness :
  length (str "password") <= length (str "        ")
  /\ validatePassword (str "password") = true
  /\ validatePassword (str "        ") = true.
Proof.
  assert (L : length (str "password") <= length (str "        "))
    by (simpl; lia).
  assert (V : validatePassword (str "password") = true) by reflexivity.
  split; [exact L | split; [exact V |]].
  exact (validatePassword_length_only (str "password") (str "        ") L V).
Defined.

(** X7. Submissions can be repeated without limit: submitting any number of
    payloads in a row leaves the cells as they were and shows, for each
    payload, the notification a single submission shows. *)
Theorem repeated_submissions : forall (vs : list jsval) (st : state),
  fst (run (map Finish vs) st) = st
  /\ notifications (snd (run (map Finish vs) st))
     = flat_map
         (fun _ => notifications (snd (dispatch (onFinish VUndefined) st)))
         vs.
Proof.
  intros vs st. induction vs as [|v vs [IHs IHn]].
  - split; reflexivity.
  - cbn [map flat_map]. rewrite run_cons, dispatch_Finish. cbn [fst snd].
    split; [exact IHs|].
    unfold notifications in *. rewrite filter_app, IHn. f_equal.
    rewrite onFinish_dispatch. cbn [snd].
    apply notifications_onFinish.
Qed.

(** X8. The inputs are wired to the cells they show: dispatching the
    [onChange] of a field with a value makes the next render pass that value
    to the same field and the value it had to the other field, and the
    form's [onFinish] leaves both as they were. *)
Theorem render_round_trip : forall (e : ChangeEvent) (values : jsval) (st : state),
  (value (username_field
            (render (fst (dispatch (onChange (username_field (render st)) e) st)))))
    = target_value e
  /\ value (password_field
              (render (fst (dispatch (onChange (username_field (render st)) e) st))))
     = value (password_field (render st))
  /\ value (password_field
              (render (fst (dispatch (onChange (password_field (render st)) e) st))))
     = target_value e
  /\ value (username_field
              (render (fst (dispatch (onChange (password_field (render st)) e) st))))
     = value (username_field (render st))
  /\ render (fst (dispatch (form_onFinish (render st) values) st)) = render st.
Proof.
  intros e values st. repeat split.
  cbn [render form_onFinish]. rewrite onFinish_dispatch. reflexivity.
Qed.

(** X9. The welcome paragraphs are the entries of [messages], one each and
    in order, whatever the cells hold, and none of them is given a key. *)
Theorem welcome_lines_unkeyed : forall (st : state),
  map line_text (welcome (render st)) = messages
  /\ length (welcome (render st)) = length messages
  /\ Forall (fun l => line_key l = None) (welcome (render st)).
Proof.
  intros st. cbn [render welcome]. split; [|split].
  - rewrite map_map. apply map_id.
  - apply length_map.
  - apply Forall_map. apply Forall_forall. intros msg _. reflexivity.
Qed.

End LoginPageTraceProperties.

(** ** Traces of events in the demo Login *)

Section LoginTraces.

Import Login.

Lemma Login_dispatch_EmailInput (e : ChangeEvent) (st : state) :
  dispatch (handle (EmailInput e)) st
  = ({| password := password st; email := target_value e |},
     if jsstring_eqb (email st) (target_value e) then []
     else [ConsoleLog [VString (target_value e)]]).
Proof.
  destruct st as [p m]. unfold dispatch, React.dispatch, React.commit. simpl.
  rewrite jsstring_eqb_refl. simpl.
  destruct (jsstring_eqb m (target_value e)); reflexivity.
Qed.

Lemma Login_dispatch_PasswordInput (e : ChangeEvent) (st : state) :
  dispatch (handle (PasswordInput e)) st
  = ({| password := target_value e; email := email st |},
     if jsstring_eqb (password st) (target_value e) then []
     else [ConsoleLog [VString (target_value e)]]).
Proof.
  destruct st as [p m]. unfold dispatch, React.dispatch, React.commit. simpl.
  rewrite jsstring_eqb_refl. simpl.
  destruct (jsstring_eqb p (target_value e)); reflexivity.
Qed.

Lemma Login_dispatch_Entrar (st : state) :
  dispatch (handle Entrar) st
  = (st, [ConsoleLog [VString (str "email:"); VString (email st)];
          ConsoleLog [VString (str "password:"); VString (password st)]]).
Proof.
  unfold dispatch. rewrite dispatch_no_writes by reflexivity. reflexivity.
Qed.

Lemma Login_run_cons (ev : event) (rest : list event) (st : state) :
  run (ev :: rest) st
  = (fst (run rest (fst (dispatch (handle ev) st))),
     snd (dispatch (handle ev) st)
     ++ snd (run rest (fst (dispatch (handle ev) st)))).
Proof.
  change (run (ev :: rest) st)
    with (let (st1, o1) := dispatch (handle ev) st in
          let (st2, o2) := run rest st1 in (st2, o1 ++ o2)).
  destruct (dispatch (handle ev) st) as [st1 o1]. cbn [fst snd].
  destruct (run rest st1) as [st2 o2]. reflexivity.
Qed.

Lemma Login_run_app (a b : list event) (st : state) :
  run (a ++ b) st
  = (fst (run b (fst (run a st))), snd (run a st) ++ snd (run b (fst (run a st)))).
Proof.
  revert st. induction a as [|ev a IH]; intros st.
  - simpl. destruct (run b st). reflexivity.
  - rewrite <- app_comm_cons, !Login_run_cons, IH. simpl.
    rewrite app_assoc. reflexivity.
Qed.

(** A cell either still holds what it held or its value was printed. *)
Lemma Login_password_printed (evs : list event) (st : state) :
  password (fst (run evs st)) = password st
  \/ In (ConsoleLog [VString (password (fst (run evs st)))]) (snd (run evs st)).
Proof.
  revert st. induction evs as [|ev rest IH]; intros st.
  - left. reflexivity.
  - rewrite Login_run_cons. cbn [fst snd].
    destruct (IH (fst (dispatch (handle ev) st))) as [E|I].
    + rewrite E. destruct ev as [e|e|].
      * rewrite Login_dispatch_EmailInput. left. reflexivity.
      * rewrite Login_dispatch_PasswordInput. cbn [fst snd password].
        destruct (jsstring_eqb (password st) (target_value e)) eqn:Q.
        -- left. symmetry. apply jsstring_eqb_eq, Q.
        -- right. left. reflexivity.
      * rewrite Login_dispatch_Entrar. left. reflexivity.
    + right. apply in_or_app. right. exact I.
Qed.

Lemma Login_email_printed (evs : list event) (st : state) :
  email (fst (run evs st)) = email st
  \/ In (ConsoleLog [VString (email (fst (run evs st)))]) (snd (run evs st)).
Proof.
  revert st. induction evs as [|ev rest IH]; intros st.
  - left. reflexivity.
  - rewrite Login_run_cons. cbn [fst snd].
    destruct (IH (fst (dispatch (handle ev) st))) as [E|I].
    + rewrite E. destruct ev as [e|e|].
      * rewrite Login_dispatch_EmailInput. cbn [fst snd email].
        destruct (jsstring_eqb (email st) (target_value e)) eqn:Q.
        -- left. symmetry. apply jsstring_eqb_eq, Q.
        -- right. left. reflexivity.
      * rewrite Login_dispatch_PasswordInput. left. reflexivity.
      * rewrite Login_dispatch_Entrar. left. reflexivity.
    + right. apply in_or_app. right. exact I.
Qed.

(** X10. Clicking Entrar logs what was typed last: after any trace, typing
    an email and a password and clicking the button ends the console output
    with the two lines carrying exactly those two values. *)
Theorem handleEntrar_logs_typed_values :
  forall (evs : list event) (st : state) (m p : jsstring),
  exists before,
    snd (run (evs ++ [EmailInput {| target_value := m |};
                      PasswordInput {| target_value := p |};
                      Entrar]) st)
    = before
      ++ [ConsoleLog [VString (str "email:"); VString m];
          ConsoleLog [VString (str "password:"); VString p]].
Proof.
  intros evs st m p. rewrite Login_run_app. cbn [snd].
  rewrite !Login_run_cons, Login_dispatch_EmailInput. cbn [fst snd].
  rewrite Login_dispatch_PasswordInput. cbn [fst snd].
  rewrite Login_dispatch_Entrar. cbn [fst snd run email password target_value].
  eexists. rewrite app_nil_r, !app_assoc. reflexivity.
Qed.

(** X11. The demo Login prints its cells in clear: counting the lines
    printed after the first render, the console holds a line with the
    current password and a line with the current email after every trace. *)
Theorem cells_are_printed : forall (evs : list event),
  In (ConsoleLog [VString (password (fst (run evs initial)))])
     (mount ++ snd (run evs initial))
  /\ In (ConsoleLog [VString (email (fst (run evs initial)))])
        (mount ++ snd (run evs initial)).
Proof.
  intros evs. split; apply in_or_app.
  - destruct (Login_password_printed evs initial) as [E|I].
    + left. rewrite E. right. left. reflexivity.
    + right. exact I.
  - destruct (Login_email_printed evs initial) as [E|I].
    + left. rewrite E. left. reflexivity.
    + right. exact I.
Qed.

(** X12. The demo Login never shows a notification: neither the first
    render nor any trace of input and click events produces one; all its
    output is console lines. *)
Theorem Login_never_notifies : forall (evs : list event) (st : state),
  notifications mount = []
  /\ notifications (snd (run evs st)) = []
  /\ console (snd (run evs st)) = snd (run evs st).
Proof.
  intros evs st. split; [reflexivity|].
  revert st. induction evs as [|ev rest IH]; intros st.
  - split; reflexivity.
  - rewrite Login_run_cons. cbn [snd]. unfold notifications, console in *.
    rewrite !filter_app.
    destruct (IH (fst (dispatch (handle ev) st))) as [IHn IHc].
    rewrite IHn, IHc.
    destruct ev as [e|e|].
    + rewrite Login_dispatch_EmailInput. cbn [snd].
      destruct (jsstring_eqb (email st) (target_value e)); split; reflexivity.
    + rewrite Login_dispatch_PasswordInput. cbn [snd].
      destruct (jsstring_eqb (password st) (target_value e));
        split; reflexivity.
    + rewrite Login_dispatch_Entrar. split; reflexivity.
Qed.

End LoginTraces.

(** ** Cards for any list of descriptors *)

Section HomeCards.

Import Home.

(** X13. A card keeps everything of its descriptor: two descriptors give the
    same column exactly when they are the same descriptor. *)
Theorem techCol_injective : forall (t1 t2 : TechInfo),
  techCol t1 = techCol t2 <-> t1 = t2.
Proof.
  intros [i1 n1 l1 d1] [i2 n2 l2 d2]. split.
  - unfold techCol. cbn [id name logoUrl description]. intros H.
    injection H as Hi Hl _ Hn Hd. subst. reflexivity.
  - intros ->. reflexivity.
Qed.

(** X14. For any list of descriptors the callback gives one column per
    descriptor, keyed in order by the ids, so the keys are pairwise distinct
    exactly when the ids are. *)
Theorem keys_follow_ids : forall (data : list TechInfo),
  length (map techCol data) = length data
  /\ map key (map techCol data) = map id data
  /\ (NoDup (map key (map techCol data)) <-> NoDup (map id data)).
Proof.
  intros data. split; [apply length_map|].
  split; [apply map_techCol_keys|].
  rewrite map_techCol_keys. tauto.
Qed.

(** X15. The grid spans match the breakpoints documented beside them: every
    column takes the whole 24-unit row on extra-small screens, half of it on
    small and medium ones and a quarter on large ones, so the four cards of
    [renderTechCards] fill exactly one large-screen row. *)
Theorem grid_spans :
  (forall data,
      Forall (fun c => (1 * xs c = 24 /\ 2 * sm c = 24
                        /\ 2 * md c = 24 /\ 4 * lg c = 24)%N)
             (map techCol data))
  /\ fold_right N.add 0%N (map lg (children renderTechCards)) = 24%N.
Proof.
  split.
  - intros data. apply Forall_map, Forall_forall. intros tech _.
    repeat split.
  - change (children renderTechCards) with (map techCol techStackData).
    rewrite map_map. reflexivity.
Qed.

End HomeCards.
